(** * Medical cost predictor: a shallow embedding of [app.py]

    The Streamlit script loads a pickled scikit-learn pipeline once
    ([load_pipeline], memoised by [@st.cache_resource]), reads six input
    widgets, and on a button click builds a one-row data frame, asks the
    pipeline for a prediction in USD and converts it to INR with the
    hard-coded rate [USD_TO_INR_RATE].

    The script is written against three external libraries (Streamlit,
    joblib, the pickled estimator).  They are modelled by their contracts:
    - what is drawn on the page is a log of [UiEvent]s;
    - [st.stop()] and Python exceptions are outcomes of a small monad;
    - the disk and the [st.cache_resource] store are components of the
      state, with a counter of [joblib.load] calls and a log of the calls
      made on the estimator;
    - the estimator is a parameter [stack_predict] that may raise, may
      return any array of floats and may depend on a hidden state.
    Layout-only calls (page config, headers, containers, columns, sidebar)
    draw constant text and are left out. *)

From Stdlib Require Import ZArith List String Bool Lia.
From Stdlib Require Import Floats.PrimFloat.
Import ListNotations.
Open Scope string_scope.

(** ** Python values, exceptions and formatted text *)

(** Exceptions derived from [Exception].  Two classes are told apart by
    the script ([except FileNotFoundError]) or raised by indexing; every
    other class is kept by name.  Classes outside [Exception]
    ([KeyboardInterrupt], [SystemExit], [GeneratorExit]), which
    [except Exception] does not catch, are not represented: the loader
    and the estimator are taken to raise classes derived from [Exception]
    only. *)
Inductive exn : Type :=
| FileNotFoundError (msg : string)
| IndexError (msg : string)
| OtherException (cls : string) (msg : string).

(** [str(e)], what [{e}] prints inside an f-string. *)
Definition str (e : exn) : string :=
  match e with
  | FileNotFoundError m => m
  | IndexError m => m
  | OtherException _ m => m
  end.

Definition is_FileNotFoundError (e : exn) : bool :=
  match e with
  | FileNotFoundError _ => true
  | _ => false
  end.

(** An f-string whose numeric fields are kept as numbers: [Num x spec] is
    the field [{x:spec}].  The decimal rendering of a float is not
    modelled. *)
Inductive piece : Type :=
| Lit (s : string)
| Num (x : float) (format_spec : string).

Definition fstring : Type := list piece.

(** Values stored in the cells of a data frame. *)
Inductive PyVal : Type :=
| PInt (n : Z)
| PFloat (x : float)
| PStr (s : string).

(** A [dict] with string keys, in insertion order. *)
Definition dict : Type := list (string * PyVal).

Fixpoint dict_get (k : string) (d : dict) : option PyVal :=
  match d with
  | [] => None
  | (k', v) :: d' => if String.eqb k k' then Some v else dict_get k d'
  end.

Definition keys (d : dict) : list string := map fst d.

(** A pandas data frame: named columns and rows of cells. *)
Record DataFrame : Type := mkDataFrame {
  columns : list string;
  rows : list (list PyVal)
}.

Fixpoint add_new (ks : list string) (seen : list string) : list string :=
  match ks with
  | [] => seen
  | k :: ks' =>
      if existsb (String.eqb k) seen then add_new ks' seen
      else add_new ks' (seen ++ [k])
  end.

(** [pd.DataFrame(records)] for a list of dicts: the columns are the keys
    in order of first appearance, a key absent from a record gives NaN. *)
Definition pd_DataFrame (records : list dict) : DataFrame :=
  let cols := fold_left (fun seen d => add_new (keys d) seen) records [] in
  {| columns := cols;
     rows := map (fun d =>
                    map (fun c => match dict_get c d with
                                  | Some v => v
                                  | None => PFloat nan
                                  end) cols) records |}.

(** A numpy array of float64, as [stack.predict] returns. *)
Definition ndarray : Type := list float.

(** ** What the page shows *)

Inductive UiEvent : Type :=
| StError (body : string)
| StSpinner (text : string)
| StSuccess (body : string) (icon : string)
| StMetric (label : string) (value : fstring) (delta : fstring)
| StMarkdown (body : fstring).

(** ** Configuration *)

(** Hardcoded exchange rate for prediction demonstration. *)
Definition USD_TO_INR_RATE : float := 83.50%float.

Definition model_filename : string := "medical_cost_stack.pkl".

(** ** Effects: state, exceptions and [st.stop()] *)

Inductive Outcome (A : Type) : Type :=
| Ret (a : A)
| Raise (e : exn)
| Stopped.

Arguments Ret {A} a.
Arguments Raise {A} e.
Arguments Stopped {A}.

Section App.

(** The unpickled estimator, opaque to the script. *)
Variable Pipeline : Type.
(** Whatever the estimator's answer may depend on besides its argument. *)
Variable World : Type.
(** [stack.predict(df)]: raises or returns an array, and may change the
    hidden state. *)
Variable stack_predict :
  Pipeline -> DataFrame -> World -> (exn + ndarray) * World.

(** What is stored at a path. *)
Inductive File : Type :=
| Missing
| Unreadable (e : exn)
| Pickled (p : Pipeline).

(** An unpickled object with its identity: two loads of one file give two
    objects. *)
Record Loaded : Type := mkLoaded {
  obj_id : nat;
  obj : Pipeline
}.

Record St : Type := mkSt {
  disk : string -> File;
  resource_cache : option Loaded;
  reads : nat;
  world : World;
  infer_calls : list DataFrame;
  ui : list UiEvent
}.

Definition M (A : Type) : Type := St -> Outcome A * St.

Definition ret {A : Type} (a : A) : M A := fun s => (Ret a, s).

Definition bind {A B : Type} (m : M A) (k : A -> M B) : M B :=
  fun s =>
    match m s with
    | (Ret a, s') => k a s'
    | (Raise e, s') => (Raise e, s')
    | (Stopped, s') => (Stopped, s')
    end.

Notation "x <- m ;; k" := (bind m (fun x => k))
  (at level 61, m at next level, right associativity).
Notation "m ;; k" := (bind m (fun _ => k))
  (at level 61, right associativity).

Definition raise {A : Type} (e : exn) : M A := fun s => (Raise e, s).

(** [try: body  except Exception as e: handler e].  [st.stop()] is not an
    [Exception] and passes through. *)
Definition try_except {A : Type} (body : M A) (handler : exn -> M A) : M A :=
  fun s =>
    match body s with
    | (Raise e, s') => handler e s'
    | r => r
    end.

Definition draw (ev : UiEvent) : M unit :=
  fun s =>
    (Ret tt,
     mkSt (disk s) (resource_cache s) (reads s) (world s) (infer_calls s)
          (ui s ++ [ev])).

Definition st_error (body : string) : M unit := draw (StError body).

Definition st_stop {A : Type} : M A := fun s => (Stopped, s).

(** [joblib.load(filename)]: one read of the disk per call. *)
Definition joblib_load (filename : string) : M Loaded :=
  fun s =>
    let s' := mkSt (disk s) (resource_cache s) (S (reads s)) (world s)
                   (infer_calls s) (ui s) in
    match disk s filename with
    | Missing =>
        (Raise (FileNotFoundError
                  ("[Errno 2] No such file or directory: '" ++ filename ++ "'")),
         s')
    | Unreadable e => (Raise e, s')
    | Pickled p => (Ret (mkLoaded (reads s) p), s')
    end.

(** [@st.cache_resource] on a function without arguments: a stored value
    is returned without running the body; a body that returns stores its
    value; a body that raises or stops stores nothing. *)
Definition st_cache_resource (body : M Loaded) : M Loaded :=
  fun s =>
    match resource_cache s with
    | Some v => (Ret v, s)
    | None =>
        match body s with
        | (Ret v, s') =>
            (Ret v,
             mkSt (disk s') (Some v) (reads s') (world s') (infer_calls s')
                  (ui s'))
        | r => r
        end
    end.

(** ** Model loading *)

Definition not_found_message : string :=
  "Error: Model file '" ++ model_filename ++ "' not found. "
  ++ "Please ensure the file is in the root of your GitHub repository.".

Definition load_error_message (e : exn) : string :=
  "Error loading model: " ++ str e.

(** The body of [load_pipeline], without its decorator. *)
Definition load_pipeline_body : M Loaded :=
  try_except
    (stack <- joblib_load model_filename ;;
     ret stack)
    (fun e =>
       if is_FileNotFoundError e then
         st_error not_found_message ;;
         st_stop
       else
         st_error (load_error_message e) ;;
         st_stop).

Definition load_pipeline : M Loaded := st_cache_resource load_pipeline_body.

(** ** Input widgets

    A widget returns the value the browser last committed for it, or its
    default when nothing was committed.  The browser commits only what the
    widget offers: a position of the slider between its ends, a number
    between the bounds of the number input, one of the options of the
    select box.  The value held for each widget is the [Session]. *)

Record Session : Type := mkSession {
  w_age : option Z;
  w_sex : option nat;
  w_smoker : option nat;
  w_bmi : option float;
  w_children : option Z;
  w_region : option nat;
  predict_button : bool
}.

(** [st.slider(label, min_value, max_value, value)] on integers. *)
Definition st_slider (min_value max_value value : Z) (held : option Z) : Z :=
  match held with
  | Some v => if (min_value <=? v)%Z && (v <=? max_value)%Z then v else value
  | None => value
  end.

(** [st.number_input(label, min_value, max_value, value, step=...)] on
    floats. *)
Definition st_number_input (min_value max_value value : float)
    (held : option float) : float :=
  match held with
  | Some v => if PrimFloat.leb min_value v && PrimFloat.leb v max_value
              then v else value
  | None => value
  end.

(** [st.selectbox(label, options)]: the option at the held index, the
    first option by default. *)
Definition st_selectbox (options : list string) (held : option nat) : string :=
  match held with
  | Some i => nth i options (hd "" options)
  | None => hd "" options
  end.

Definition sex_options : list string := ["male"; "female"].
Definition smoker_options : list string := ["no"; "yes"].
Definition region_options : list string :=
  ["southeast"; "southwest"; "northeast"; "northwest"].

(** The six values read from the widgets. *)
Record Profile : Type := mkProfile {
  age : Z;
  sex : string;
  bmi : float;
  children : Z;
  smoker : string;
  region : string
}.

Definition read_widgets (sess : Session) : Profile :=
  {| age := st_slider 18 65 30 (w_age sess);
     sex := st_selectbox sex_options (w_sex sess);
     smoker := st_selectbox smoker_options (w_smoker sess);
     bmi := st_number_input 15.0 55.0 25.0 (w_bmi sess);
     children := st_slider 0 5 0 (w_children sess);
     region := st_selectbox region_options (w_region sess) |}.

(** ** Prediction logic *)

(** 1. Gather all user inputs into a dictionary. *)
Definition input_data (p : Profile) : dict :=
  [ ("age", PInt (age p));
    ("sex", PStr (sex p));
    ("bmi", PFloat (bmi p));
    ("children", PInt (children p));
    ("smoker", PStr (smoker p));
    ("region", PStr (region p)) ].

(** 2. Convert dictionary to a DataFrame. *)
Definition features_df (p : Profile) : DataFrame :=
  pd_DataFrame [input_data p].

(** [stack.predict(df)], with the call recorded. *)
Definition predict (stack : Loaded) (df : DataFrame) : M ndarray :=
  fun s =>
    let (r, w') := stack_predict (obj stack) df (world s) in
    let s' := mkSt (disk s) (resource_cache s) (reads s) w'
                   (infer_calls s ++ [df]) (ui s) in
    match r with
    | inl e => (Raise e, s')
    | inr a => (Ret a, s')
    end.

(** [a[0]] on an array. *)
Definition getitem0 (a : ndarray) : M float :=
  match a with
  | x :: _ => ret x
  | [] => raise (IndexError "index 0 is out of bounds for axis 0 with size 0")
  end.

Definition spinner_text : string :=
  "Calculating estimate using the machine learning model...".
Definition label_usd : string := "🇺🇸 Estimated Annual Charge (USD)".
Definition label_inr : string := "🇮🇳 Estimated Annual Charge (INR)".

Definition formula_markdown (rate : float) : fstring :=
  [ Lit "
                <div style='background-color: #e0f7fa; padding: 15px; border-radius: 10px; margin-top: 20px; border-left: 5px solid #00bcd4;'>
                    <p style='font-weight: bold; color: #00838f;'>Conversion Formula Used:</p>
                    <p>
                        Estimated Cost (INR) = Estimated Cost (USD) $\times$ ";
    Num rate "";
    Lit "
                    </p>
                </div>
                " ].

Definition prediction_error_message (e : exn) : string :=
  "An error occurred during prediction. Please check model and inputs. Error details: "
  ++ str e.

(** The block run when the button is pressed.  The source reads the
    module constant [USD_TO_INR_RATE]; here the rate is an argument, and
    the script below passes the constant. *)
Definition prediction_logic (rate : float) (stack : Loaded) (p : Profile)
    : M unit :=
  let features_df := features_df p in
  draw (StSpinner spinner_text) ;;
  try_except
    (a <- predict stack features_df ;;
     prediction_usd <- getitem0 a ;;
     let prediction_inr := PrimFloat.mul prediction_usd rate in
     draw (StSuccess "✅ Prediction Complete!" "📈") ;;
     draw (StMetric label_usd
                    [Lit "$"; Num prediction_usd ",.2f"]
                    [Lit "Model Estimate"]) ;;
     draw (StMetric label_inr
                    [Lit "₹"; Num prediction_inr ",.2f"]
                    [Lit "Based on "; Num rate ""; Lit " INR/USD"]) ;;
     draw (StMarkdown (formula_markdown rate)))
    (fun e => st_error (prediction_error_message e)).

(** One run of the script, top to bottom. *)
Definition script (sess : Session) : M unit :=
  stack <- load_pipeline ;;
  let p := read_widgets sess in
  if predict_button sess
  then prediction_logic USD_TO_INR_RATE stack p
  else ret tt.

(** ** Reruns

    Streamlit runs the script again on every interaction, in the same
    process: the page is redrawn from nothing, the resource cache and the
    estimator persist, and the disk may have changed in between. *)

Definition new_run (d : string -> File) (s : St) : St :=
  mkSt d (resource_cache s) (reads s) (world s) (infer_calls s) [].

(** Successive calls of [load_pipeline], one per run, each with what it
    returned and what it drew. *)
Fixpoint load_calls (disks : list (string -> File)) (s : St)
    : list (Outcome Loaded * list UiEvent) * St :=
  match disks with
  | [] => ([], s)
  | d :: disks' =>
      let (r, s1) := load_pipeline (new_run d s) in
      let (rs, s2) := load_calls disks' s1 in
      ((r, ui s1) :: rs, s2)
  end.

(** ** Reading the page *)

Definition is_error (ev : UiEvent) : bool :=
  match ev with StError _ => true | _ => false end.

Definition is_estimate (ev : UiEvent) : bool :=
  match ev with StMetric _ _ _ => true | _ => false end.

Definition errors (page : list UiEvent) : list UiEvent := filter is_error page.
Definition estimates (page : list UiEvent) : list UiEvent :=
  filter is_estimate page.

(** The number shown by the metric with the given label. *)
Fixpoint shown_amount (label : string) (page : list UiEvent) : option float :=
  match page with
  | [] => None
  | StMetric l [Lit _; Num x _] _ :: page' =>
      if String.eqb l label then Some x else shown_amount label page'
  | _ :: page' => shown_amount label page'
  end.

(** ** The documented domains of a profile *)

Definition in_domain (p : Profile) : bool :=
  (18 <=? age p)%Z && (age p <=? 65)%Z
  && PrimFloat.leb 15.0 (bmi p) && PrimFloat.leb (bmi p) 55.0
  && (0 <=? children p)%Z && (children p <=? 5)%Z
  && existsb (String.eqb (sex p)) sex_options
  && existsb (String.eqb (smoker p)) smoker_options
  && existsb (String.eqb (region p)) region_options.

(** ** Determinism

    The answer of a loaded estimator does not depend on the hidden state. *)
Definition deterministic (stack : Loaded) : Prop :=
  forall (df : DataFrame) (w w' : World),
    fst (stack_predict (obj stack) df w) = fst (stack_predict (obj stack) df w').

End App.

Arguments Missing {Pipeline}.
Arguments Unreadable {Pipeline} e.
Arguments Pickled {Pipeline} p.
Arguments mkLoaded {Pipeline} obj_id obj.
Arguments obj_id {Pipeline} l.
Arguments obj {Pipeline} l.
Arguments mkSt {Pipeline World} disk resource_cache reads world infer_calls ui.
Arguments disk {Pipeline World} s _.
Arguments resource_cache {Pipeline World} s.
Arguments reads {Pipeline World} s.
Arguments world {Pipeline World} s.
Arguments infer_calls {Pipeline World} s.
Arguments ui {Pipeline World} s.
Arguments load_pipeline {Pipeline World} _.
Arguments load_calls {Pipeline World} disks s.
Arguments new_run {Pipeline World} d s.
Arguments predict {Pipeline World} stack_predict stack df _.
Arguments prediction_logic {Pipeline World} stack_predict rate stack p _.
Arguments script {Pipeline World} stack_predict sess _.
Arguments deterministic {Pipeline World} stack_predict stack.

(** What a command drew, read off its result. *)
Definition page {Pipeline World A : Type}
    (r : Outcome A * St Pipeline World) : list UiEvent :=
  ui (snd r).

(** ** The pages of the prediction block *)

(** What the block does is decided by the answer of the estimator: it
    raised, it returned an empty array, or it returned an array with a
    first element. *)
Definition answer (r : exn + ndarray) : exn + float :=
  match r with
  | inl e => inl e
  | inr [] => inl (IndexError "index 0 is out of bounds for axis 0 with size 0")
  | inr (x :: _) => inr x
  end.

Definition estimate_page (rate usd : float) : list UiEvent :=
  [ StSpinner spinner_text;
    StSuccess "✅ Prediction Complete!" "📈";
    StMetric label_usd [Lit "$"; Num usd ",.2f"] [Lit "Model Estimate"];
    StMetric label_inr [Lit "₹"; Num (PrimFloat.mul usd rate) ",.2f"]
             [Lit "Based on "; Num rate ""; Lit " INR/USD"];
    StMarkdown (formula_markdown rate) ].

Definition failure_page (e : exn) : list UiEvent :=
  [ StSpinner spinner_text; StError (prediction_error_message e) ].

Definition page_of_answer (rate : float) (a : exn + float) : list UiEvent :=
  match a with
  | inl e => failure_page e
  | inr usd => estimate_page rate usd
  end.

(** ** A canned estimator

    An estimator that gives the same stored answer to every request and
    counts the requests in its hidden state. *)

Definition Canned : Type := (exn + ndarray)%type.

Definition canned_predict (p : Canned) (_ : DataFrame) (w : nat)
    : (exn + ndarray) * nat :=
  (p, S w).

Definition fresh_process (d : string -> File Canned) : St Canned nat :=
  mkSt d None 0 0 [] [].

Definition disk_with (f : File Canned) : string -> File Canned :=
  fun path => if String.eqb path model_filename then f else Missing.

Definition default_session : Session :=
  mkSession None None None None None None true.

(** The profile of the scenario: the defaults of the widgets. *)
Definition default_profile : Profile :=
  mkProfile 30 "male" 25.0 0 "no" "southeast".

Definition underage_profile : Profile :=
  mkProfile 17 "male" 25.0 0 "no" "southeast".

Definition canned_stack (a : Canned) : Loaded Canned := mkLoaded 0 a.

Definition unpickling_error : exn :=
  OtherException "UnpicklingError" "invalid load key, 'x'.".

(** What unpickling raises when the pickle refers to a second file that is
    gone. *)
Definition missing_part_error : exn :=
  FileNotFoundError
    "[Errno 2] No such file or directory: 'medical_cost_stack.pkl_01.npy'".

Definition model_disk (a : Canned) : string -> File Canned :=
  disk_with (Pickled a).

(** ** Successive runs of the script

    Each run has what the browser holds for the widgets and what is on the
    disk at that time; the list gives, run by run, how the run ended and
    the page it drew. *)
Fixpoint script_runs {Pipeline World : Type}
    (stack_predict : Pipeline -> DataFrame -> World -> (exn + ndarray) * World)
    (inputs : list (Session * (string -> File Pipeline)))
    (s : St Pipeline World)
    : list (Outcome unit * list UiEvent) * St Pipeline World :=
  match inputs with
  | [] => ([], s)
  | (sess, d) :: inputs' =>
      let (r, s1) := script stack_predict sess (new_run d s) in
      let (rs, s2) := script_runs stack_predict inputs' s1 in
      ((r, ui s1) :: rs, s2)
  end.

(** The feature rows of the runs in which the button was pressed. *)
Definition pressed_rows {Pipeline : Type}
    (inputs : list (Session * (string -> File Pipeline))) : list DataFrame :=
  map (fun i => features_df (read_widgets (fst i)))
      (filter (fun i => predict_button (fst i)) inputs).

(** * Properties *)

Section Properties.

Context {Pipeline World : Type}.
Variable stack_predict :
  Pipeline -> DataFrame -> World -> (exn + ndarray) * World.

Local Abbreviation State := (St Pipeline World).

Lemma prediction_logic_run (rate : float) (stack : Loaded Pipeline)
    (p : Profile) (s : State) :
  prediction_logic stack_predict rate stack p s =
  (Ret tt,
   mkSt (disk s) (resource_cache s) (reads s)
        (snd (stack_predict (obj stack) (features_df p) (world s)))
        (infer_calls s ++ [features_df p])
        (ui s ++ page_of_answer rate
            (answer (fst (stack_predict (obj stack) (features_df p) (world s)))))).
Proof.
  unfold prediction_logic, try_except, bind, predict, draw, st_error, draw.
  cbn [disk resource_cache reads world infer_calls ui].
  destruct (stack_predict (obj stack) (features_df p) (world s)) as [r w'].
  destruct r as [e | [| usd rest]]; cbn -[features_df formula_markdown];
    repeat rewrite <- app_assoc; reflexivity.
Qed.

Lemma prediction_logic_page (rate : float) (stack : Loaded Pipeline)
    (p : Profile) (d : string -> File Pipeline) (s : State) :
  page (prediction_logic stack_predict rate stack p (new_run d s)) =
  page_of_answer rate
    (answer (fst (stack_predict (obj stack) (features_df p) (world s)))).
Proof.
  rewrite prediction_logic_run. reflexivity.
Qed.

Lemma shown_estimate (rate usd : float) :
  shown_amount label_usd (estimate_page rate usd) = Some usd /\
  shown_amount label_inr (estimate_page rate usd)
  = Some (PrimFloat.mul usd rate) /\
  errors (estimate_page rate usd) = [].
Proof. repeat split. Qed.

Lemma shown_failure (e : exn) :
  shown_amount label_usd (failure_page e) = None /\
  shown_amount label_inr (failure_page e) = None /\
  errors (failure_page e) = [StError (prediction_error_message e)] /\
  estimates (failure_page e) = [].
Proof. repeat split. Qed.

Lemma page_of_answer_converted (rate : float) (a : exn + float) (usd : float) :
  shown_amount label_usd (page_of_answer rate a) = Some usd ->
  shown_amount label_inr (page_of_answer rate a)
  = Some (PrimFloat.mul usd rate).
Proof.
  destruct a as [e | x]; cbn [page_of_answer].
  - intros H. discriminate H.
  - destruct (shown_estimate rate x) as (Hu & Hi & _).
    rewrite Hu, Hi. intros H. injection H as ->. reflexivity.
Qed.

(** ** Loading *)

Lemma load_pipeline_hit (s : State) (v : Loaded Pipeline) :
  resource_cache s = Some v -> load_pipeline s = (Ret v, s).
Proof.
  intros H. unfold load_pipeline, st_cache_resource. rewrite H. reflexivity.
Qed.

Lemma load_pipeline_missing (s : State) :
  resource_cache s = None ->
  disk s model_filename = Missing ->
  load_pipeline s =
  (Stopped,
   mkSt (disk s) None (S (reads s)) (world s) (infer_calls s)
        (ui s ++ [StError not_found_message])).
Proof.
  intros Hc Hd.
  unfold load_pipeline, st_cache_resource, load_pipeline_body, try_except,
    bind, joblib_load.
  rewrite Hc, Hd. reflexivity.
Qed.

Lemma load_pipeline_unreadable (s : State) (e : exn) :
  resource_cache s = None ->
  disk s model_filename = Unreadable e ->
  load_pipeline s =
  (Stopped,
   mkSt (disk s) None (S (reads s)) (world s) (infer_calls s)
        (ui s ++ [StError (if is_FileNotFoundError e
                           then not_found_message
                           else load_error_message e)])).
Proof.
  intros Hc Hd.
  unfold load_pipeline, st_cache_resource, load_pipeline_body, try_except,
    bind, joblib_load.
  rewrite Hc, Hd.
  destruct (is_FileNotFoundError e);
    reflexivity.
Qed.

Lemma load_pipeline_pickled (s : State) (p : Pipeline) :
  resource_cache s = None ->
  disk s model_filename = Pickled p ->
  load_pipeline s =
  (Ret (mkLoaded (reads s) p),
   mkSt (disk s) (Some (mkLoaded (reads s) p)) (S (reads s)) (world s)
        (infer_calls s) (ui s)).
Proof.
  intros Hc Hd.
  unfold load_pipeline, st_cache_resource, load_pipeline_body, try_except,
    bind, joblib_load, ret.
  rewrite Hc, Hd. reflexivity.
Qed.

(** A call that returns leaves its value in the cache. *)
Lemma load_pipeline_returns (s s1 : State) (v : Loaded Pipeline) :
  load_pipeline s = (Ret v, s1) -> resource_cache s1 = Some v.
Proof.
  destruct (resource_cache s) as [v0 |] eqn:Hc.
  - rewrite (load_pipeline_hit s v0 Hc). intros H. congruence.
  - destruct (disk s model_filename) as [| e | p] eqn:Hd.
    + rewrite (load_pipeline_missing s Hc Hd). discriminate.
    + rewrite (load_pipeline_unreadable s e Hc Hd). discriminate.
    + rewrite (load_pipeline_pickled s p Hc Hd).
      intros H. injection H as Hv Hs. subst. reflexivity.
Qed.

(** The messages of the three failures start differently. *)
Lemma messages_distinct (e e' : exn) :
  load_error_message e <> not_found_message /\
  prediction_error_message e <> not_found_message /\
  prediction_error_message e <> load_error_message e'.
Proof.
  unfold load_error_message, prediction_error_message, not_found_message.
  repeat split; intros H; cbn in H; discriminate H.
Qed.

(** [load_pipeline] either returns a pipeline that is now in the cache,
    having drawn nothing, or draws one error and stops the script. *)
Lemma load_pipeline_cases (s : State) :
  (exists v n,
     load_pipeline s =
     (Ret v, mkSt (disk s) (Some v) n (world s) (infer_calls s) (ui s)))
  \/
  (exists m,
     (m = not_found_message \/ exists e, m = load_error_message e) /\
     resource_cache s = None /\
     load_pipeline s =
     (Stopped,
      mkSt (disk s) None (S (reads s)) (world s) (infer_calls s)
           (ui s ++ [StError m]))).
Proof.
  destruct (resource_cache s) as [v0 |] eqn:Hc.
  - left. exists v0, (reads s). rewrite (load_pipeline_hit s v0 Hc).
    destruct s; cbn in *; subst; reflexivity.
  - destruct (disk s model_filename) as [| e | p] eqn:Hd.
    + right. exists not_found_message. split; [now left |].
      split; [reflexivity |]. now apply load_pipeline_missing.
    + right. rewrite (load_pipeline_unreadable s e Hc Hd).
      destruct (is_FileNotFoundError e).
      * exists not_found_message. split; [now left |]. now split.
      * exists (load_error_message e).
        split; [right; now exists e |]. now split.
    + left. exists (mkLoaded (reads s) p), (S (reads s)).
      now apply load_pipeline_pickled.
Qed.

(** ** One run of the script *)

Lemma script_cases (sess : Session) (s : State) :
  (exists m,
     (m = not_found_message \/ exists e, m = load_error_message e) /\
     fst (script stack_predict sess s) = Stopped /\
     page (script stack_predict sess s) = (ui s ++ [StError m])%list /\
     infer_calls (snd (script stack_predict sess s)) = infer_calls s)
  \/
  (predict_button sess = false /\
   fst (script stack_predict sess s) = Ret tt /\
   page (script stack_predict sess s) = ui s /\
   infer_calls (snd (script stack_predict sess s)) = infer_calls s)
  \/
  (exists stack,
     predict_button sess = true /\
     fst (script stack_predict sess s) = Ret tt /\
     page (script stack_predict sess s) =
       (ui s ++ page_of_answer USD_TO_INR_RATE
                  (answer (fst (stack_predict (obj stack)
                                  (features_df (read_widgets sess)) (world s)))))%list /\
     infer_calls (snd (script stack_predict sess s)) =
       (infer_calls s ++ [features_df (read_widgets sess)])%list).
Proof.
  unfold script, bind, page.
  destruct (load_pipeline_cases s) as [(v & n & Hl) | (m & Hm & _ & Hl)];
    rewrite Hl.
  - destruct (predict_button sess) eqn:Hb.
    + right. right. exists v. rewrite prediction_logic_run.
      repeat split.
    + right. left. repeat split.
  - left. exists m. repeat split. exact Hm.
Qed.

(** ** Currency conversion *)

(** C1. For every successful prediction, the converted amount shown is the
    base-currency prediction multiplied by the conversion rate, both being
    float64 values; the script runs the block with the rate 83.50. *)
Theorem converted_is_product (rate : float) (stack : Loaded Pipeline)
    (p : Profile) (d : string -> File Pipeline) (s : State)
    (amount_base : float) :
  shown_amount label_usd
    (page (prediction_logic stack_predict rate stack p (new_run d s)))
  = Some amount_base ->
  shown_amount label_inr
    (page (prediction_logic stack_predict rate stack p (new_run d s)))
  = Some (PrimFloat.mul amount_base rate).
Proof.
  rewrite prediction_logic_page. apply page_of_answer_converted.
Qed.

(** The same on a whole run of the script, where the rate is the module
    constant. *)
Corollary script_converted_is_product (sess : Session)
    (d : string -> File Pipeline) (s : State) (amount_base : float) :
  shown_amount label_usd (page (script stack_predict sess (new_run d s)))
  = Some amount_base ->
  shown_amount label_inr (page (script stack_predict sess (new_run d s)))
  = Some (PrimFloat.mul amount_base 83.50).
Proof.
  destruct (script_cases sess (new_run d s))
    as [(m & _ & _ & Hp & _) | [(_ & _ & Hp & _) | (stack & _ & _ & Hp & _)]];
    rewrite Hp; cbn [new_run ui app].
  - intros H. discriminate H.
  - intros H. discriminate H.
  - apply (page_of_answer_converted USD_TO_INR_RATE).
Qed.

(** ** No checks around the inference call *)

(** C3, as the code has it. On a successful prediction the amount shown is
    the first element of the array the estimator returned, whatever its
    sign and whether finite or not; the block has no range check and draws
    no error for such a value. *)
Theorem amount_base_is_first_element (rate : float) (stack : Loaded Pipeline)
    (p : Profile) (d : string -> File Pipeline) (s : State)
    (x : float) (rest : ndarray) (w' : World) :
  stack_predict (obj stack) (features_df p) (world s) = (inr (x :: rest), w') ->
  shown_amount label_usd
    (page (prediction_logic stack_predict rate stack p (new_run d s)))
  = Some x /\
  errors (page (prediction_logic stack_predict rate stack p (new_run d s)))
  = [].
Proof.
  intros H. rewrite prediction_logic_page, H. split; reflexivity.
Qed.

(** C9. When the inference fails, because the estimator raises or because
    its array has no first element, the block draws exactly one error,
    whose message carries the text of the exception and differs from both
    messages of the loader, and it draws no estimate. *)
Theorem inference_failure_reported (rate : float) (stack : Loaded Pipeline)
    (p : Profile) (d : string -> File Pipeline) (s : State) (e : exn) :
  answer (fst (stack_predict (obj stack) (features_df p) (world s))) = inl e ->
  page (prediction_logic stack_predict rate stack p (new_run d s))
  = [StSpinner spinner_text; StError (prediction_error_message e)] /\
  errors (page (prediction_logic stack_predict rate stack p (new_run d s)))
  = [StError (prediction_error_message e)] /\
  estimates (page (prediction_logic stack_predict rate stack p (new_run d s)))
  = [] /\
  prediction_error_message e <> not_found_message /\
  (forall e', prediction_error_message e <> load_error_message e').
Proof.
  intros H. rewrite prediction_logic_page, H. cbn [page_of_answer].
  repeat split.
  - apply (messages_distinct e e).
  - intros e'. apply (messages_distinct e e').
Qed.

(** On a whole run: at most one error is drawn, and a run that draws an
    error draws no estimate. *)
Lemma script_error_or_estimate (sess : Session)
    (d : string -> File Pipeline) (s : State) :
  errors (page (script stack_predict sess (new_run d s))) = [] \/
  (exists m,
     errors (page (script stack_predict sess (new_run d s))) = [StError m] /\
     estimates (page (script stack_predict sess (new_run d s))) = []).
Proof.
  destruct (script_cases sess (new_run d s))
    as [(m & _ & _ & Hp & _) | [(_ & _ & Hp & _) | (stack & _ & _ & Hp & _)]];
    rewrite Hp; cbn [new_run ui app].
  - right. exists m. split; reflexivity.
  - left. reflexivity.
  - destruct (answer _) as [e | usd].
    + right. exists (prediction_error_message e). split; reflexivity.
    + left. reflexivity.
Qed.

(** ** Determinism *)

(** C7. With a deterministic estimator, two successive runs of the block
    on the same profile, rate and loaded pipeline draw the same page, hence
    show the same base amount, and on each of them the converted amount is
    the base amount times the rate. *)
Theorem prediction_repeatable (rate : float) (stack : Loaded Pipeline)
    (p : Profile) (d d' : string -> File Pipeline) (s : State) :
  deterministic stack_predict stack ->
  let first := prediction_logic stack_predict rate stack p (new_run d s) in
  let second :=
    prediction_logic stack_predict rate stack p (new_run d' (snd first)) in
  shown_amount label_usd (page first) = shown_amount label_usd (page second) /\
  page first = page second /\
  (forall usd, shown_amount label_usd (page first) = Some usd ->
               shown_amount label_inr (page first)
               = Some (PrimFloat.mul usd rate)) /\
  (forall usd, shown_amount label_usd (page second) = Some usd ->
               shown_amount label_inr (page second)
               = Some (PrimFloat.mul usd rate)).
Proof.
  intros Hdet first second.
  assert (Hpage : page first = page second).
  { unfold second, first. rewrite !prediction_logic_page.
    rewrite prediction_logic_run. cbn [snd world new_run].
    rewrite (Hdet (features_df p) (world s)
               (snd (stack_predict (obj stack) (features_df p) (world s)))).
    reflexivity. }
  split; [now rewrite Hpage |]. split; [exact Hpage |].
  split; intros usd H.
  - unfold first in *. rewrite prediction_logic_page in H |- *.
    now apply page_of_answer_converted.
  - unfold second in *. rewrite prediction_logic_page in H |- *.
    now apply page_of_answer_converted.
Qed.

(** ** Feature shaping *)

(** C8. For every profile the data frame has the six columns age, sex,
    bmi, children, smoker, region, in that order, and a single row that
    holds the six values of the profile, the three strings unchanged; that
    data frame is what the estimator is called on. *)
Theorem features_df_shape (rate : float) (stack : Loaded Pipeline)
    (p : Profile) (s : State) :
  columns (features_df p)
  = ["age"; "sex"; "bmi"; "children"; "smoker"; "region"] /\
  keys (input_data p) = columns (features_df p) /\
  rows (features_df p)
  = [[PInt (age p); PStr (sex p); PFloat (bmi p); PInt (children p);
      PStr (smoker p); PStr (region p)]] /\
  dict_get "sex" (input_data p) = Some (PStr (sex p)) /\
  dict_get "smoker" (input_data p) = Some (PStr (smoker p)) /\
  dict_get "region" (input_data p) = Some (PStr (region p)) /\
  infer_calls (snd (prediction_logic stack_predict rate stack p s))
  = (infer_calls s ++ [features_df p])%list.
Proof.
  repeat split.
  rewrite prediction_logic_run. reflexivity.
Qed.

(** ** Domains *)

Lemma st_slider_bounds (lo hi value : Z) (held : option Z) :
  (lo <= value <= hi)%Z ->
  (lo <= st_slider lo hi value held <= hi)%Z.
Proof.
  intros Hv. unfold st_slider. destruct held as [v |]; [| exact Hv].
  destruct ((lo <=? v)%Z && (v <=? hi)%Z) eqn:Hb; [| exact Hv].
  apply andb_true_iff in Hb. destruct Hb as [H1 H2].
  apply Z.leb_le in H1. apply Z.leb_le in H2. lia.
Qed.

Lemma st_number_input_bounds (lo hi value : float) (held : option float) :
  PrimFloat.leb lo value = true ->
  PrimFloat.leb value hi = true ->
  PrimFloat.leb lo (st_number_input lo hi value held) = true /\
  PrimFloat.leb (st_number_input lo hi value held) hi = true.
Proof.
  intros H1 H2. unfold st_number_input.
  destruct held as [v |]; [| now split].
  destruct (PrimFloat.leb lo v && PrimFloat.leb v hi) eqn:Hb; [| now split].
  apply andb_true_iff in Hb. exact Hb.
Qed.

Lemma st_selectbox_option (options : list string) (held : option nat) :
  options <> [] ->
  In (st_selectbox options held) options.
Proof.
  intros Hne. destruct options as [| o options']; [congruence |].
  unfold st_selectbox. destruct held as [i |]; [| now left].
  destruct (Nat.lt_ge_cases i (List.length (o :: options'))) as [Hlt | Hge].
  - now apply nth_In.
  - rewrite nth_overflow by exact Hge. now left.
Qed.

Lemma existsb_eqb_In (x : string) (l : list string) :
  In x l -> existsb (String.eqb x) l = true.
Proof.
  intros H. apply existsb_exists. exists x. split; [exact H |].
  apply String.eqb_refl.
Qed.

Lemma read_widgets_in_domain (sess : Session) :
  in_domain (read_widgets sess) = true.
Proof.
  unfold in_domain, read_widgets; cbn [age sex bmi children smoker region].
  pose proof (st_slider_bounds 18 65 30 (w_age sess) ltac:(lia)) as [Ha1 Ha2].
  pose proof (st_slider_bounds 0 5 0 (w_children sess) ltac:(lia)) as [Hc1 Hc2].
  pose proof (st_number_input_bounds 15.0 55.0 25.0 (w_bmi sess)
                eq_refl eq_refl) as [Hb1 Hb2].
  apply Z.leb_le in Ha1, Ha2, Hc1, Hc2.
  rewrite Ha1, Ha2, Hc1, Hc2, Hb1, Hb2.
  rewrite !existsb_eqb_In; [reflexivity | | |];
    apply st_selectbox_option; discriminate.
Qed.

(** C10. Whatever the browser holds for the widgets, the profile read from
    them is inside the documented domains, and a run of the script calls
    the estimator on nothing but the feature row of that profile. *)
Theorem widgets_enforce_domains (sess : Session)
    (d : string -> File Pipeline) (s : State) :
  in_domain (read_widgets sess) = true /\
  (18 <= age (read_widgets sess) <= 65)%Z /\
  (0 <= children (read_widgets sess) <= 5)%Z /\
  PrimFloat.leb 15.0 (bmi (read_widgets sess)) = true /\
  PrimFloat.leb (bmi (read_widgets sess)) 55.0 = true /\
  In (sex (read_widgets sess)) ["male"; "female"] /\
  In (smoker (read_widgets sess)) ["no"; "yes"] /\
  In (region (read_widgets sess))
     ["southeast"; "southwest"; "northeast"; "northwest"] /\
  (infer_calls (snd (script stack_predict sess (new_run d s))) = infer_calls s
   \/
   infer_calls (snd (script stack_predict sess (new_run d s)))
   = (infer_calls s ++ [features_df (read_widgets sess)])%list).
Proof.
  split; [apply read_widgets_in_domain |].
  split; [apply st_slider_bounds; lia |].
  split; [apply st_slider_bounds; lia |].
  split; [apply st_number_input_bounds; reflexivity |].
  split; [apply st_number_input_bounds; reflexivity |].
  split; [apply (st_selectbox_option sex_options); discriminate |].
  split; [apply (st_selectbox_option smoker_options); discriminate |].
  split; [apply (st_selectbox_option region_options); discriminate |].
  destruct (script_cases sess (new_run d s))
    as [(m & _ & _ & _ & Hc) | [(_ & _ & _ & Hc) | (stack & _ & _ & _ & Hc)]].
  - left. exact Hc.
  - left. exact Hc.
  - right. exact Hc.
Qed.

(** ** The loader over successive runs *)

Lemma load_calls_missing (disks : list (string -> File Pipeline)) :
  forall s : State,
    resource_cache s = None ->
    Forall (fun d => d model_filename = Missing) disks ->
    fst (load_calls disks s)
    = repeat (Stopped, [StError not_found_message]) (List.length disks) /\
    resource_cache (snd (load_calls disks s)) = None /\
    reads (snd (load_calls disks s)) = reads s + List.length disks.
Proof.
  induction disks as [| d disks' IH]; intros s Hc Hall.
  - cbn. repeat split; [exact Hc | lia].
  - inversion Hall as [| d0 l0 Hd Hall']; subst.
    cbn [load_calls].
    rewrite (load_pipeline_missing (new_run d s) Hc Hd).
    cbn [new_run disk resource_cache reads world infer_calls ui app].
    match goal with
    | |- context [load_calls disks' ?s1] =>
        specialize (IH s1 eq_refl Hall'); destruct (load_calls disks' s1)
    end.
    cbn [fst snd reads List.length repeat] in *.
    destruct IH as (H1 & H2 & H3). rewrite H1, H2, H3.
    repeat split. lia.
Qed.

Lemma load_calls_cached (disks : list (string -> File Pipeline)) :
  forall (s : State) (v : Loaded Pipeline),
    resource_cache s = Some v ->
    fst (load_calls disks s) = repeat (Ret v, []) (List.length disks) /\
    resource_cache (snd (load_calls disks s)) = Some v /\
    reads (snd (load_calls disks s)) = reads s.
Proof.
  induction disks as [| d disks' IH]; intros s v Hc.
  - cbn. repeat split. exact Hc.
  - cbn [load_calls].
    rewrite (load_pipeline_hit (new_run d s) v Hc).
    specialize (IH (new_run d s) v Hc).
    destruct (load_calls disks' (new_run d s)).
    cbn [fst snd List.length repeat new_run ui reads] in *.
    destruct IH as (H1 & H2 & H3). rewrite H1, H2, H3. repeat split.
Qed.

(** C5, as the code has it. While the model file is missing, every call
    of the loader draws the "not found" error and stops the script, and
    nothing is put in the cache.  A file that is present but cannot be
    unpickled stops the script as well, with an error chosen by the class
    of the exception: "Error loading model" with the text of the exception,
    which is never the "not found" message, unless the exception is itself
    a [FileNotFoundError], which is reported as "not found". *)
Theorem load_failures_reported (disks : list (string -> File Pipeline))
    (d : string -> File Pipeline) (e : exn) (s : State) :
  resource_cache s = None ->
  Forall (fun d0 => d0 model_filename = Missing) disks ->
  d model_filename = Unreadable e ->
  fst (load_calls disks s)
  = repeat (Stopped, [StError not_found_message]) (List.length disks) /\
  resource_cache (snd (load_calls disks s)) = None /\
  fst (load_pipeline (new_run d s)) = Stopped /\
  page (load_pipeline (new_run d s))
  = [StError (if is_FileNotFoundError e
              then not_found_message
              else load_error_message e)] /\
  resource_cache (snd (load_pipeline (new_run d s))) = None /\
  (forall e', load_error_message e' <> not_found_message).
Proof.
  intros Hc Hall Hd.
  destruct (load_calls_missing disks s Hc Hall) as (H1 & H2 & _).
  split; [exact H1 |]. split; [exact H2 |].
  rewrite (load_pipeline_unreadable (new_run d s) e Hc Hd).
  repeat split. intros e'. apply (messages_distinct e' e').
Qed.

(** C6, as the code has it. A call of the loader that returns has read the
    file at most once and leaves its pipeline in the cache: every later
    call returns that same object, reads nothing and draws nothing.  A call
    that fails stops the script, has read once and stores nothing, so that
    the next call reads again. *)
Theorem load_once_after_success (d : string -> File Pipeline) (s s1 : State)
    (r : Outcome (Loaded Pipeline)) :
  load_pipeline (new_run d s) = (r, s1) ->
  match r with
  | Ret v =>
      reads s1 <= S (reads s) /\
      forall disks,
        fst (load_calls disks s1) = repeat (Ret v, []) (List.length disks) /\
        resource_cache (snd (load_calls disks s1)) = Some v /\
        reads (snd (load_calls disks s1)) = reads s1
  | _ =>
      r = Stopped /\ resource_cache s1 = None /\ reads s1 = S (reads s)
  end.
Proof.
  intros H.
  destruct (load_pipeline_cases (new_run d s))
    as [(v & n & Hl) | (m & _ & Hc & Hl)]; rewrite Hl in H;
    injection H as <- <-.
  - split.
    + destruct (resource_cache (new_run d s)) as [v0 |] eqn:Hc.
      * rewrite (load_pipeline_hit _ v0 Hc) in Hl.
        injection Hl as _ _ Hn. cbn in Hn. cbn. lia.
      * destruct (d model_filename) as [| e | p] eqn:Hd.
        -- rewrite (load_pipeline_missing _ Hc Hd) in Hl. discriminate Hl.
        -- rewrite (load_pipeline_unreadable _ e Hc Hd) in Hl.
           discriminate Hl.
        -- rewrite (load_pipeline_pickled _ p Hc Hd) in Hl.
           injection Hl as _ Hn. cbn in Hn. cbn. lia.
    + intros disks. now apply load_calls_cached.
  - repeat split.
Qed.

End Properties.

(** * Whole runs *)

Section Runs.

Context {Pipeline World : Type}.
Variable stack_predict :
  Pipeline -> DataFrame -> World -> (exn + ndarray) * World.

Local Abbreviation State := (St Pipeline World).

(** The script is the loader followed, when it returns and the button is
    pressed, by the prediction block on the profile of the widgets. *)
Lemma script_run (sess : Session) (s : State) :
  script stack_predict sess s =
  match load_pipeline s with
  | (Ret stack, s1) =>
      if predict_button sess
      then prediction_logic stack_predict USD_TO_INR_RATE stack
             (read_widgets sess) s1
      else (Ret tt, s1)
  | (Raise e, s1) => (Raise e, s1)
  | (Stopped, s1) => (Stopped, s1)
  end.
Proof.
  unfold script, bind.
  destruct (load_pipeline s) as [[stack | e |] s1]; try reflexivity.
  destruct (predict_button sess); reflexivity.
Qed.

Lemma script_cached (sess : Session) (s : State) (v : Loaded Pipeline) :
  resource_cache s = Some v ->
  script stack_predict sess s =
  if predict_button sess
  then prediction_logic stack_predict USD_TO_INR_RATE v (read_widgets sess) s
  else (Ret tt, s).
Proof.
  intros Hc. rewrite script_run, (load_pipeline_hit s v Hc). reflexivity.
Qed.

(** A run is stopped only by the loader.  When a run ends in
    [st.stop()], the cache was empty and the disk held no loadable model
    file, the page is one error of the loader and nothing else, the
    estimator was not called and nothing was cached. *)
Theorem stopped_run_is_loader_failure (sess : Session)
    (d : string -> File Pipeline) (s : State) :
  fst (script stack_predict sess (new_run d s)) = Stopped ->
  resource_cache s = None /\
  (forall p, d model_filename <> Pickled p) /\
  (exists m,
     (m = not_found_message \/ exists e, m = load_error_message e) /\
     page (script stack_predict sess (new_run d s)) = [StError m]) /\
  infer_calls (snd (script stack_predict sess (new_run d s))) = infer_calls s /\
  resource_cache (snd (script stack_predict sess (new_run d s))) = None.
Proof.
  rewrite script_run.
  destruct (resource_cache s) as [v |] eqn:Hc.
  - rewrite (load_pipeline_hit (new_run d s) v Hc).
    destruct (predict_button sess).
    + rewrite prediction_logic_run. intros H. discriminate H.
    + intros H. discriminate H.
  - destruct (d model_filename) as [| e | p] eqn:Hd.
    + rewrite (load_pipeline_missing (new_run d s) Hc Hd). intros _.
      repeat split; [discriminate |].
      exists not_found_message. split; [now left | reflexivity].
    + rewrite (load_pipeline_unreadable (new_run d s) e Hc Hd). intros _.
      repeat split; [discriminate |].
      destruct (is_FileNotFoundError e).
      * exists not_found_message. split; [now left | reflexivity].
      * exists (load_error_message e).
        split; [right; now exists e | reflexivity].
    + rewrite (load_pipeline_pickled (new_run d s) p Hc Hd).
      destruct (predict_button sess).
      * rewrite prediction_logic_run. intros H. discriminate H.
      * intros H. discriminate H.
Qed.

(** The errors a run can draw are of three kinds and no other: the "not
    found" message and the "Error loading model" message of the loader,
    and the message of the prediction block with the text of what was
    raised there. *)
Theorem script_error_kinds (sess : Session)
    (d : string -> File Pipeline) (s : State) (m : string) :
  In (StError m) (page (script stack_predict sess (new_run d s))) ->
  m = not_found_message \/
  (exists e, m = load_error_message e) \/
  (exists e, m = prediction_error_message e).
Proof.
  destruct (script_cases stack_predict sess (new_run d s))
    as [(m0 & Hm & _ & Hp & _) | [(_ & _ & Hp & _) | (stack & _ & _ & Hp & _)]];
    rewrite Hp; cbn [new_run ui app].
  - intros [H | []]. injection H as <-.
    destruct Hm as [-> | He]; [now left | right; now left].
  - intros [].
  - destruct (answer _) as [e | usd]; cbn [page_of_answer].
    + intros [H | [H | []]]; [discriminate H |].
      injection H as <-. right. right. now exists e.
    + intros H. cbn in H.
      repeat (destruct H as [H | H]; [discriminate H |]). destruct H.
Qed.

(** A run reads the model file once when the cache is empty and not at
    all when it is filled, whether or not the button is pressed and
    whatever the estimator answers. *)
Theorem script_reads (sess : Session) (s : State) :
  reads (snd (script stack_predict sess s)) =
  match resource_cache s with
  | Some _ => reads s
  | None => S (reads s)
  end.
Proof.
  rewrite script_run.
  destruct (resource_cache s) as [v |] eqn:Hc.
  - rewrite (load_pipeline_hit s v Hc).
    destruct (predict_button sess); [| reflexivity].
    rewrite prediction_logic_run. reflexivity.
  - destruct (disk s model_filename) as [| e | p] eqn:Hd.
    + rewrite (load_pipeline_missing s Hc Hd). reflexivity.
    + rewrite (load_pipeline_unreadable s e Hc Hd). reflexivity.
    + rewrite (load_pipeline_pickled s p Hc Hd).
      destruct (predict_button sess); [| reflexivity].
      rewrite prediction_logic_run. reflexivity.
Qed.

(** With an empty cache and no model file, a run stops at the loader even
    when the button is pressed: the page is the "not found" error alone,
    the estimator is not called and nothing is cached. *)
Theorem missing_model_blocks_prediction (sess : Session)
    (d : string -> File Pipeline) (s : State) :
  resource_cache s = None ->
  d model_filename = Missing ->
  script stack_predict sess (new_run d s) =
  (Stopped,
   mkSt d None (S (reads s)) (world s) (infer_calls s)
        [StError not_found_message]).
Proof.
  intros Hc Hd. rewrite script_run.
  rewrite (load_pipeline_missing (new_run d s) Hc Hd). reflexivity.
Qed.

(** With an empty cache and a model file that cannot be unpickled, the
    error drawn is chosen by the class of the exception alone: a
    [FileNotFoundError] raised while unpickling gives the "not found"
    message of a missing file, any other exception gives "Error loading
    model" with its text.  The run stops either way. *)
Theorem unreadable_model_message_by_class (sess : Session)
    (d : string -> File Pipeline) (s : State) (e : exn) :
  resource_cache s = None ->
  d model_filename = Unreadable e ->
  script stack_predict sess (new_run d s) =
  (Stopped,
   mkSt d None (S (reads s)) (world s) (infer_calls s)
        [StError (if is_FileNotFoundError e
                  then not_found_message
                  else load_error_message e)]).
Proof.
  intros Hc Hd. rewrite script_run.
  rewrite (load_pipeline_unreadable (new_run d s) e Hc Hd). reflexivity.
Qed.

(** Once a pipeline is cached, a run does not look at the disk: whatever
    the file has become, the run completes, the page is the one the cached
    pipeline's answer gives (or nothing when the button is not pressed),
    and the cache and the count of reads do not move. *)
Theorem cached_pipeline_ignores_disk (sess : Session)
    (d : string -> File Pipeline) (s : State) (v : Loaded Pipeline) :
  resource_cache s = Some v ->
  fst (script stack_predict sess (new_run d s)) = Ret tt /\
  page (script stack_predict sess (new_run d s))
  = (if predict_button sess
     then page_of_answer USD_TO_INR_RATE
            (answer (fst (stack_predict (obj v)
                            (features_df (read_widgets sess)) (world s))))
     else []) /\
  resource_cache (snd (script stack_predict sess (new_run d s))) = Some v /\
  reads (snd (script stack_predict sess (new_run d s))) = reads s.
Proof.
  intros Hc. rewrite (script_cached sess (new_run d s) v Hc).
  destruct (predict_button sess).
  - rewrite prediction_logic_run. repeat split. exact Hc.
  - repeat split. exact Hc.
Qed.

(** A run in which the button is not pressed calls the estimator on
    nothing, leaves its hidden state alone and shows no estimate. *)
Theorem idle_run_makes_no_call (sess : Session)
    (d : string -> File Pipeline) (s : State) :
  predict_button sess = false ->
  infer_calls (snd (script stack_predict sess (new_run d s))) = infer_calls s /\
  world (snd (script stack_predict sess (new_run d s))) = world s /\
  estimates (page (script stack_predict sess (new_run d s))) = [].
Proof.
  intros Hb. rewrite script_run, Hb.
  destruct (load_pipeline_cases (new_run d s))
    as [(v & n & Hl) | (m & _ & _ & Hl)]; rewrite Hl; repeat split.
Qed.

(** When a run shows an estimate, the button was pressed, the amount is
    the first element of what the cached pipeline answered on the feature
    row of the widgets' profile, that row is the one call made, the
    converted amount is the amount times 83.50 and no error is drawn. *)
Theorem script_estimate_origin (sess : Session)
    (d : string -> File Pipeline) (s : State) (x : float) :
  shown_amount label_usd (page (script stack_predict sess (new_run d s)))
  = Some x ->
  predict_button sess = true /\
  (exists stack,
     resource_cache (snd (script stack_predict sess (new_run d s)))
     = Some stack /\
     answer (fst (stack_predict (obj stack)
                    (features_df (read_widgets sess)) (world s))) = inr x) /\
  infer_calls (snd (script stack_predict sess (new_run d s)))
  = (infer_calls s ++ [features_df (read_widgets sess)])%list /\
  shown_amount label_inr (page (script stack_predict sess (new_run d s)))
  = Some (PrimFloat.mul x 83.50) /\
  errors (page (script stack_predict sess (new_run d s))) = [].
Proof.
  rewrite script_run.
  destruct (load_pipeline_cases (new_run d s))
    as [(v & n & Hl) | (m & _ & _ & Hl)]; rewrite Hl.
  - destruct (predict_button sess); [| intros H; discriminate H].
    rewrite prediction_logic_run.
    cbn [page snd fst ui world infer_calls resource_cache new_run app].
    destruct (answer _) as [e | usd] eqn:Ha; cbn [page_of_answer].
    + intros H. discriminate H.
    + destruct (shown_estimate USD_TO_INR_RATE usd) as (Hu & Hi & He).
      rewrite Hu, Hi, He. intros H. injection H as ->.
      repeat split. exists v. split; [reflexivity | exact Ha].
  - intros H. discriminate H.
Qed.

(** ** Many runs *)

Lemma load_calls_app (l1 l2 : list (string -> File Pipeline)) :
  forall s : State,
    load_calls (l1 ++ l2) s =
    ((fst (load_calls l1 s)
      ++ fst (load_calls l2 (snd (load_calls l1 s))))%list,
     snd (load_calls l2 (snd (load_calls l1 s)))).
Proof.
  induction l1 as [| d l1' IH]; intros s.
  - cbn. now destruct (load_calls l2 s).
  - cbn [app load_calls].
    destruct (load_pipeline (new_run d s)) as [r s1].
    rewrite IH. destruct (load_calls l1' s1) as [rs s2]. reflexivity.
Qed.

(** A process started without the model file recovers when the file
    appears: the calls made while it is missing fail with the "not found"
    error, the first call that finds the file loads it, and every call
    after that returns this same object whatever the disk holds; the file
    was read once per failed call and once more. *)
Theorem loader_recovers_when_file_appears
    (before after : list (string -> File Pipeline))
    (d : string -> File Pipeline) (p : Pipeline) (s : State) :
  resource_cache s = None ->
  Forall (fun d0 => d0 model_filename = Missing) before ->
  d model_filename = Pickled p ->
  fst (load_calls (before ++ d :: after) s)
  = (repeat (Stopped, [StError not_found_message]) (List.length before)
     ++ repeat (Ret (mkLoaded (reads s + List.length before) p), [])
          (S (List.length after)))%list /\
  reads (snd (load_calls (before ++ d :: after) s))
  = S (reads s + List.length before).
Proof.
  intros Hc Hall Hd.
  rewrite load_calls_app.
  destruct (load_calls_missing before s Hc Hall) as (H1 & H2 & H3).
  rewrite H1. cbn [fst snd].
  set (s1 := snd (load_calls before s)) in *.
  cbn [load_calls].
  rewrite (load_pipeline_pickled (new_run d s1) p H2 Hd).
  cbn [new_run reads disk world infer_calls ui].
  match goal with
  | |- context [load_calls after ?s2] =>
      destruct (load_calls_cached after s2 _ eq_refl) as (K1 & _ & K3);
      destruct (load_calls after s2) as [rs s3]
  end.
  cbn [fst snd reads repeat] in *. rewrite K1, K3, H3. split; reflexivity.
Qed.

Lemma script_runs_cached
    (inputs : list (Session * (string -> File Pipeline))) :
  forall (s : State) (v : Loaded Pipeline),
    resource_cache s = Some v ->
    resource_cache (snd (script_runs stack_predict inputs s)) = Some v /\
    reads (snd (script_runs stack_predict inputs s)) = reads s /\
    infer_calls (snd (script_runs stack_predict inputs s))
    = (infer_calls s ++ pressed_rows inputs)%list /\
    Forall (fun o => fst o = Ret tt) (fst (script_runs stack_predict inputs s)).
Proof.
  induction inputs as [| [sess d] inputs' IH]; intros s v Hc.
  - cbn. rewrite app_nil_r. repeat split. exact Hc. constructor.
  - cbn [script_runs].
    assert (Hrun :
      fst (script stack_predict sess (new_run d s)) = Ret tt /\
      resource_cache (snd (script stack_predict sess (new_run d s))) = Some v /\
      reads (snd (script stack_predict sess (new_run d s))) = reads s).
    { rewrite (script_cached sess (new_run d s) v Hc).
      destruct (predict_button sess).
      - rewrite prediction_logic_run. repeat split. exact Hc.
      - repeat split. exact Hc. }
    destruct Hrun as (Hr & Hc1 & Hn1).
    assert (Hi1 :
      infer_calls (snd (script stack_predict sess (new_run d s)))
      = (infer_calls s ++ if predict_button sess
                          then [features_df (read_widgets sess)]
                          else [])%list).
    { rewrite (script_cached sess (new_run d s) v Hc).
      destruct (predict_button sess).
      - rewrite prediction_logic_run. reflexivity.
      - cbn. now rewrite app_nil_r. }
    destruct (script stack_predict sess (new_run d s)) as [r s1].
    cbn [fst snd] in *.
    specialize (IH s1 v Hc1).
    destruct (script_runs stack_predict inputs' s1) as [rs s2].
    cbn [fst snd] in *.
    destruct IH as (I1 & I2 & I3 & I4).
    split; [exact I1 |]. split; [congruence |].
    split.
    + rewrite I3, Hi1. unfold pressed_rows. cbn [filter fst].
      destruct (predict_button sess); cbn [map app fst].
      * now rewrite <- app_assoc.
      * now rewrite app_nil_r.
    + constructor; [exact Hr | exact I4].
Qed.

(** In a process whose pipeline is cached, any sequence of runs keeps the
    same pipeline in the cache, reads nothing, completes every run, and
    calls the estimator exactly once per run in which the button is
    pressed, in order, on the feature row of that run's widgets. *)
Theorem loaded_process_runs
    (inputs : list (Session * (string -> File Pipeline)))
    (s : State) (v : Loaded Pipeline) :
  resource_cache s = Some v ->
  resource_cache (snd (script_runs stack_predict inputs s)) = Some v /\
  reads (snd (script_runs stack_predict inputs s)) = reads s /\
  infer_calls (snd (script_runs stack_predict inputs s))
  = (infer_calls s ++ pressed_rows inputs)%list /\
  Forall (fun o => fst o = Ret tt) (fst (script_runs stack_predict inputs s)).
Proof.
  intros Hc. now apply script_runs_cached.
Qed.

(** ** Shaping and widgets *)

(** Shaping loses nothing: two different profiles give two different
    data frames. *)
Theorem features_df_injective (p q : Profile) :
  p <> q -> features_df p <> features_df q.
Proof.
  intros Hne H. apply Hne.
  apply (f_equal rows) in H. cbn in H.
  destruct p, q. cbn in H. injection H as -> -> -> -> -> ->. reflexivity.
Qed.

Lemma st_selectbox_reaches (options : list string) (x : string) :
  existsb (String.eqb x) options = true ->
  exists i, st_selectbox options (Some i) = x.
Proof.
  intros H. apply existsb_exists in H. destruct H as (y & Hin & Heq).
  apply String.eqb_eq in Heq. subst y.
  destruct (In_nth options x (hd "" options) Hin) as (i & _ & Hi).
  exists i. exact Hi.
Qed.

(** The widgets offer every profile of the documented domains: for each
    one there is something the browser can hold that makes the script read
    exactly that profile. *)
Theorem domain_profile_reachable (p : Profile) (pressed : bool) :
  in_domain p = true ->
  exists sess,
    read_widgets sess = p /\ predict_button sess = pressed.
Proof.
  unfold in_domain. intros H.
  repeat (apply andb_true_iff in H; destruct H as [H ?]).
  destruct (st_selectbox_reaches sex_options (sex p)) as (i & Hi); [assumption |].
  destruct (st_selectbox_reaches smoker_options (smoker p)) as (j & Hj);
    [assumption |].
  destruct (st_selectbox_reaches region_options (region p)) as (k & Hk);
    [assumption |].
  exists (mkSession (Some (age p)) (Some i) (Some j) (Some (bmi p))
            (Some (children p)) (Some k) pressed).
  split; [| reflexivity].
  unfold read_widgets, st_slider, st_number_input.
  cbn [w_age w_sex w_smoker w_bmi w_children w_region].
  rewrite Hi, Hj, Hk.
  repeat match goal with
         | Hb : _ = true |- _ => rewrite Hb; clear Hb
         end.
  destruct p; reflexivity.
Qed.

End Runs.

(** * The properties on the canned estimator *)

Example read_default : read_widgets default_session = default_profile.
Proof. reflexivity. Qed.

Example script_default :
  page (script canned_predict default_session
          (fresh_process (disk_with (Pickled (inr [1000.0%float]))))) =
  [ StSpinner spinner_text;
    StSuccess "✅ Prediction Complete!" "📈";
    StMetric label_usd [Lit "$"; Num 1000.0 ",.2f"] [Lit "Model Estimate"];
    StMetric label_inr [Lit "₹"; Num 83500.0 ",.2f"]
             [Lit "Based on "; Num 83.5 ""; Lit " INR/USD"];
    StMarkdown (formula_markdown 83.5) ].
Proof. reflexivity. Qed.

Example script_missing_model :
  script canned_predict default_session (fresh_process (disk_with Missing)) =
  (Stopped,
   mkSt (disk_with Missing) None 1 0 [] [StError not_found_message]).
Proof. reflexivity. Qed.

Lemma converted_is_product_witness :
  shown_amount label_usd
    (page (prediction_logic canned_predict 83.50
             (canned_stack (inr [1000.0%float])) default_profile
             (new_run (model_disk (inr [1000.0%float]))
                (fresh_process (model_disk (inr [1000.0%float]))))))
  = Some 1000.0%float /\
  shown_amount label_inr
    (page (prediction_logic canned_predict 83.50
             (canned_stack (inr [1000.0%float])) default_profile
             (new_run (model_disk (inr [1000.0%float]))
                (fresh_process (model_disk (inr [1000.0%float]))))))
  = Some (PrimFloat.mul 1000.0 83.50).
Proof.
  split.
  - reflexivity.
  - apply (converted_is_product canned_predict 83.50%float
             (canned_stack (inr [1000.0%float])) default_profile
             (model_disk (inr [1000.0%float]))
             (fresh_process (model_disk (inr [1000.0%float])))
             1000.0%float).
    reflexivity.
Defined.

Lemma amount_base_is_first_element_witness :
  canned_predict (obj (canned_stack (inr [(-1)%float; 2.0%float])))
    (features_df default_profile)
    (world (fresh_process (model_disk (inr [(-1)%float; 2.0%float]))))
  = (inr [(-1)%float; 2.0%float], 1) /\
  shown_amount label_usd
    (page (prediction_logic canned_predict USD_TO_INR_RATE
             (canned_stack (inr [(-1)%float; 2.0%float])) default_profile
             (new_run (model_disk (inr [(-1)%float; 2.0%float]))
                (fresh_process (model_disk (inr [(-1)%float; 2.0%float]))))))
  = Some (-1)%float.
Proof.
  split.
  - reflexivity.
  - apply (amount_base_is_first_element canned_predict USD_TO_INR_RATE
             (canned_stack (inr [(-1)%float; 2.0%float])) default_profile
             (model_disk (inr [(-1)%float; 2.0%float]))
             (fresh_process (model_disk (inr [(-1)%float; 2.0%float])))
             (-1)%float [2.0%float] 1).
    reflexivity.
Defined.

(** An estimator that answers -1, and one that answers infinity: the run
    of the script shows the value as the estimate and draws no error. *)
Lemma negative_amount_is_shown :
  PrimFloat.ltb (-1) 0 = true /\
  page (script canned_predict default_session
          (fresh_process (model_disk (inr [(-1)%float]))))
  = estimate_page USD_TO_INR_RATE (-1) /\
  shown_amount label_usd (estimate_page USD_TO_INR_RATE (-1))
  = Some (-1)%float /\
  errors (estimate_page USD_TO_INR_RATE (-1)) = [] /\
  page (script canned_predict default_session
          (fresh_process (model_disk (inr [infinity]))))
  = estimate_page USD_TO_INR_RATE infinity /\
  shown_amount label_usd (estimate_page USD_TO_INR_RATE infinity)
  = Some infinity.
Proof. repeat split. Qed.

Lemma load_failures_reported_witness :
  resource_cache (fresh_process (disk_with Missing)) = None /\
  disk_with (Unreadable unpickling_error) model_filename
  = Unreadable unpickling_error /\
  fst (load_calls [disk_with Missing; disk_with Missing]
         (fresh_process (disk_with Missing)))
  = [ (Stopped, [StError not_found_message]);
      (Stopped, [StError not_found_message]) ] /\
  page (load_pipeline
          (new_run (disk_with (Unreadable unpickling_error))
             (fresh_process (disk_with Missing))))
  = [StError "Error loading model: invalid load key, 'x'."].
Proof.
  split; [reflexivity |]. split; [reflexivity |].
  pose proof
    (load_failures_reported (World := nat)
       [disk_with Missing; disk_with Missing]
       (disk_with (Unreadable unpickling_error)) unpickling_error
       (fresh_process (disk_with Missing))
       eq_refl
       (Forall_cons _ eq_refl (Forall_cons _ eq_refl (Forall_nil _)))
       eq_refl) as (H1 & _ & _ & H4 & _).
  split; [exact H1 | exact H4].
Defined.

(** A model file that is present and whose unpickling raises a
    [FileNotFoundError], as when a file it refers to is gone: the loader
    draws the "not found" error of a missing file, not the "Error loading
    model" error. *)
Lemma unpickling_failure_shown_as_missing :
  disk_with (Unreadable missing_part_error) model_filename
  = Unreadable missing_part_error /\
  load_pipeline
    (new_run (disk_with (Unreadable missing_part_error))
       (fresh_process (disk_with Missing)))
  = (Stopped,
     mkSt (disk_with (Unreadable missing_part_error))
          None 1 0 [] [StError not_found_message]) /\
  page (load_pipeline
          (new_run (disk_with Missing) (fresh_process (disk_with Missing))))
  = [StError not_found_message] /\
  not_found_message <> load_error_message missing_part_error.
Proof.
  repeat split. intros H. discriminate H.
Qed.

Lemma load_once_after_success_witness :
  load_pipeline
    (new_run (model_disk (inr [1000.0%float]))
       (fresh_process (disk_with Missing)))
  = (Ret (canned_stack (inr [1000.0%float])),
     mkSt (model_disk (inr [1000.0%float]))
          (Some (canned_stack (inr [1000.0%float]))) 1 0 [] []) /\
  fst (load_calls [disk_with Missing; model_disk (inl unpickling_error)]
         (mkSt (model_disk (inr [1000.0%float]))
               (Some (canned_stack (inr [1000.0%float]))) 1 0 [] []))
  = [ (Ret (canned_stack (inr [1000.0%float])), []);
      (Ret (canned_stack (inr [1000.0%float])), []) ] /\
  reads
    (snd (load_calls [disk_with Missing; model_disk (inl unpickling_error)]
            (mkSt (model_disk (inr [1000.0%float]))
                  (Some (canned_stack (inr [1000.0%float]))) 1 0 [] [])))
  = 1.
Proof.
  split; [reflexivity |].
  pose proof
    (load_once_after_success
       (model_disk (inr [1000.0%float]))
       (fresh_process (disk_with Missing))
       (mkSt (model_disk (inr [1000.0%float]))
             (Some (canned_stack (inr [1000.0%float]))) 1 0 [] [])
       (Ret (canned_stack (inr [1000.0%float])))
       eq_refl) as (_ & H).
  destruct (H [disk_with Missing; model_disk (inl unpickling_error)])
    as (H1 & _ & H3).
  split; [exact H1 | exact H3].
Defined.

(** While the file cannot be unpickled, every run reads it again: two runs,
    two reads, and nothing in the cache. *)
Lemma failed_load_is_read_again :
  load_calls [ disk_with (Unreadable unpickling_error);
               disk_with (Unreadable unpickling_error) ]
    (fresh_process (disk_with (Unreadable unpickling_error)))
  = ([ (Stopped, [StError (load_error_message unpickling_error)]);
       (Stopped, [StError (load_error_message unpickling_error)]) ],
     mkSt (disk_with (Unreadable unpickling_error)) None 2 0 []
          [StError (load_error_message unpickling_error)]) /\
  reads
    (snd (load_calls [disk_with Missing; disk_with Missing]
            (fresh_process (disk_with Missing))))
  = 2.
Proof. split; reflexivity. Qed.

Lemma prediction_repeatable_witness :
  deterministic canned_predict (canned_stack (inr [1000.0%float])) /\
  page (prediction_logic canned_predict USD_TO_INR_RATE
          (canned_stack (inr [1000.0%float])) default_profile
          (new_run (model_disk (inr [1000.0%float]))
             (fresh_process (model_disk (inr [1000.0%float])))))
  = page (prediction_logic canned_predict USD_TO_INR_RATE
            (canned_stack (inr [1000.0%float])) default_profile
            (new_run (model_disk (inr [1000.0%float]))
               (snd (prediction_logic canned_predict USD_TO_INR_RATE
                       (canned_stack (inr [1000.0%float])) default_profile
                       (new_run (model_disk (inr [1000.0%float]))
                          (fresh_process
                             (model_disk (inr [1000.0%float])))))))).
Proof.
  split.
  - intros df w w'. reflexivity.
  - apply (prediction_repeatable canned_predict USD_TO_INR_RATE
             (canned_stack (inr [1000.0%float])) default_profile
             (model_disk (inr [1000.0%float]))
             (model_disk (inr [1000.0%float]))
             (fresh_process (model_disk (inr [1000.0%float])))
             (fun df w w' => eq_refl)).
Defined.

Lemma inference_failure_reported_witness :
  answer
    (fst (canned_predict
            (obj (canned_stack
                    (inl (OtherException "ValueError"
                            "Found unknown categories ['mars'] in column 3"))))
            (features_df default_profile)
            (world (fresh_process (disk_with Missing)))))
  = inl (OtherException "ValueError"
           "Found unknown categories ['mars'] in column 3") /\
  page (prediction_logic canned_predict USD_TO_INR_RATE
          (canned_stack
             (inl (OtherException "ValueError"
                     "Found unknown categories ['mars'] in column 3")))
          default_profile
          (new_run (disk_with Missing) (fresh_process (disk_with Missing))))
  = [ StSpinner spinner_text;
      StError "An error occurred during prediction. Please check model and inputs. Error details: Found unknown categories ['mars'] in column 3" ].
Proof.
  split.
  - reflexivity.
  - apply (inference_failure_reported canned_predict USD_TO_INR_RATE
             (canned_stack
                (inl (OtherException "ValueError"
                        "Found unknown categories ['mars'] in column 3")))
             default_profile (disk_with Missing)
             (fresh_process (disk_with Missing))
             (OtherException "ValueError"
                "Found unknown categories ['mars'] in column 3")
             eq_refl).
Defined.

(** * Whole runs on the canned estimator *)

Lemma missing_model_blocks_prediction_witness :
  resource_cache (fresh_process (disk_with Missing)) = None /\
  disk_with Missing model_filename = Missing /\
  page (script canned_predict default_session
          (new_run (disk_with Missing) (fresh_process (disk_with Missing))))
  = [StError not_found_message].
Proof.
  split; [reflexivity |]. split; [reflexivity |].
  exact (f_equal (fun r => ui (snd r))
           (missing_model_blocks_prediction canned_predict default_session
              (disk_with Missing) (fresh_process (disk_with Missing))
              eq_refl eq_refl)).
Defined.

Lemma unreadable_model_message_by_class_witness :
  disk_with (Unreadable (FileNotFoundError "No such file: 'weights.npy'"))
    model_filename
  = Unreadable (FileNotFoundError "No such file: 'weights.npy'") /\
  page (script canned_predict default_session
          (new_run
             (disk_with
                (Unreadable (FileNotFoundError "No such file: 'weights.npy'")))
             (fresh_process (disk_with Missing))))
  = [StError not_found_message].
Proof.
  split; [reflexivity |].
  exact (f_equal (fun r => ui (snd r))
           (unreadable_model_message_by_class canned_predict default_session
              (disk_with
                 (Unreadable (FileNotFoundError "No such file: 'weights.npy'")))
              (fresh_process (disk_with Missing))
              (FileNotFoundError "No such file: 'weights.npy'")
              eq_refl eq_refl)).
Defined.

Lemma cached_pipeline_ignores_disk_witness :
  resource_cache
    (mkSt (model_disk (inr [1000.0%float]))
          (Some (canned_stack (inr [1000.0%float]))) 1 0 [] [])
  = Some (canned_stack (inr [1000.0%float])) /\
  page (script canned_predict default_session
          (new_run (disk_with Missing)
             (mkSt (model_disk (inr [1000.0%float]))
                   (Some (canned_stack (inr [1000.0%float]))) 1 0 [] [])))
  = estimate_page USD_TO_INR_RATE 1000.0 /\
  reads
    (snd (script canned_predict default_session
            (new_run (disk_with Missing)
               (mkSt (model_disk (inr [1000.0%float]))
                     (Some (canned_stack (inr [1000.0%float]))) 1 0 [] []))))
  = 1.
Proof.
  split; [reflexivity |].
  destruct
    (cached_pipeline_ignores_disk canned_predict default_session
       (disk_with Missing)
       (mkSt (model_disk (inr [1000.0%float]))
             (Some (canned_stack (inr [1000.0%float]))) 1 0 [] [])
       (canned_stack (inr [1000.0%float])) eq_refl)
    as (_ & Hp & _ & Hr).
  split; [exact Hp | exact Hr].
Defined.

Lemma idle_run_makes_no_call_witness :
  predict_button (mkSession (Some 40%Z) None None None None None false)
  = false /\
  infer_calls
    (snd (script canned_predict
            (mkSession (Some 40%Z) None None None None None false)
            (new_run (model_disk (inr [1000.0%float]))
               (fresh_process (model_disk (inr [1000.0%float]))))))
  = [].
Proof.
  split; [reflexivity |].
  exact (proj1
           (idle_run_makes_no_call canned_predict
              (mkSession (Some 40%Z) None None None None None false)
              (model_disk (inr [1000.0%float]))
              (fresh_process (model_disk (inr [1000.0%float])))
              eq_refl)).
Defined.

Lemma script_estimate_origin_witness :
  shown_amount label_usd
    (page (script canned_predict default_session
             (new_run (model_disk (inr [1000.0%float; 7.0%float]))
                (fresh_process (disk_with Missing)))))
  = Some 1000.0%float /\
  shown_amount label_inr
    (page (script canned_predict default_session
             (new_run (model_disk (inr [1000.0%float; 7.0%float]))
                (fresh_process (disk_with Missing)))))
  = Some (PrimFloat.mul 1000.0 83.50).
Proof.
  split; [reflexivity |].
  destruct
    (script_estimate_origin canned_predict default_session
       (model_disk (inr [1000.0%float; 7.0%float]))
       (fresh_process (disk_with Missing)) 1000.0%float eq_refl)
    as (_ & _ & _ & Hi & _).
  exact Hi.
Defined.

Lemma loader_recovers_when_file_appears_witness :
  resource_cache (fresh_process (disk_with Missing)) = None /\
  model_disk (inr [1000.0%float]) model_filename
  = Pickled (inr [1000.0%float]) /\
  fst (load_calls
         [ disk_with Missing; disk_with Missing;
           model_disk (inr [1000.0%float]);
           disk_with Missing ]
         (fresh_process (disk_with Missing)))
  = [ (Stopped, [StError not_found_message]);
      (Stopped, [StError not_found_message]);
      (Ret (mkLoaded 2 (inr [1000.0%float])), []);
      (Ret (mkLoaded 2 (inr [1000.0%float])), []) ].
Proof.
  split; [reflexivity |]. split; [reflexivity |].
  exact (proj1
           (loader_recovers_when_file_appears (World := nat)
              [disk_with Missing; disk_with Missing] [disk_with Missing]
              (model_disk (inr [1000.0%float])) (inr [1000.0%float])
              (fresh_process (disk_with Missing))
              eq_refl
              (Forall_cons _ eq_refl (Forall_cons _ eq_refl (Forall_nil _)))
              eq_refl)).
Defined.

Lemma loaded_process_runs_witness :
  resource_cache
    (mkSt (model_disk (inr [1000.0%float]))
          (Some (canned_stack (inr [1000.0%float]))) 1 0 [] [])
  = Some (canned_stack (inr [1000.0%float])) /\
  infer_calls
    (snd (script_runs canned_predict
            [ (default_session, disk_with Missing);
              (mkSession (Some 40%Z) None None None None None false,
               disk_with Missing);
              (mkSession (Some 40%Z) None None None None None true,
               model_disk (inl unpickling_error)) ]
            (mkSt (model_disk (inr [1000.0%float]))
                  (Some (canned_stack (inr [1000.0%float]))) 1 0 [] [])))
  = [ features_df default_profile;
      features_df (mkProfile 40 "male" 25.0 0 "no" "southeast") ].
Proof.
  split; [reflexivity |].
  destruct
    (loaded_process_runs canned_predict
       [ (default_session, disk_with Missing);
         (mkSession (Some 40%Z) None None None None None false,
          disk_with Missing);
         (mkSession (Some 40%Z) None None None None None true,
          model_disk (inl unpickling_error)) ]
       (mkSt (model_disk (inr [1000.0%float]))
             (Some (canned_stack (inr [1000.0%float]))) 1 0 [] [])
       (canned_stack (inr [1000.0%float])) eq_refl)
    as (_ & _ & Hi & _).
  exact Hi.
Defined.

Lemma features_df_injective_witness :
  default_profile <> underage_profile /\
  features_df default_profile <> features_df underage_profile.
Proof.
  assert (H : default_profile <> underage_profile) by discriminate.
  split; [exact H | exact (features_df_injective _ _ H)].
Defined.

Lemma domain_profile_reachable_witness :
  in_domain (mkProfile 64 "female" 31.5 3 "yes" "northwest") = true /\
  exists sess,
    read_widgets sess = mkProfile 64 "female" 31.5 3 "yes" "northwest" /\
    predict_button sess = true.
Proof.
  split; [reflexivity |].
  exact (domain_profile_reachable
           (mkProfile 64 "female" 31.5 3 "yes" "northwest") true eq_refl).
Defined.

Lemma stopped_run_is_loader_failure_witness :
  fst (script canned_predict default_session
         (new_run (disk_with (Unreadable unpickling_error))
            (fresh_process (disk_with Missing))))
  = Stopped /\
  infer_calls
    (snd (script canned_predict default_session
            (new_run (disk_with (Unreadable unpickling_error))
               (fresh_process (disk_with Missing)))))
  = [] /\
  resource_cache
    (snd (script canned_predict default_session
            (new_run (disk_with (Unreadable unpickling_error))
               (fresh_process (disk_with Missing)))))
  = None.
Proof.
  split; [reflexivity |].
  exact (proj2 (proj2 (proj2
           (stopped_run_is_loader_failure canned_predict default_session
              (disk_with (Unreadable unpickling_error))
              (fresh_process (disk_with Missing)) eq_refl)))).
Defined.

Lemma script_error_kinds_witness :
  In (StError (prediction_error_message
                 (IndexError "index 0 is out of bounds for axis 0 with size 0")))
     (page (script canned_predict default_session
              (new_run (model_disk (inr []))
                 (fresh_process (disk_with Missing))))) /\
  (prediction_error_message
     (IndexError "index 0 is out of bounds for axis 0 with size 0")
   = not_found_message \/
   (exists e,
      prediction_error_message
        (IndexError "index 0 is out of bounds for axis 0 with size 0")
      = load_error_message e) \/
   (exists e,
      prediction_error_message
        (IndexError "index 0 is out of bounds for axis 0 with size 0")
      = prediction_error_message e)).
Proof.
  assert (H :
    In (StError (prediction_error_message
                   (IndexError "index 0 is out of bounds for axis 0 with size 0")))
       (page (script canned_predict default_session
                (new_run (model_disk (inr []))
                   (fresh_process (disk_with Missing))))))
    by (right; left; reflexivity).
  split; [exact H |].
  exact (script_error_kinds canned_predict default_session
           (model_disk (inr [])) (fresh_process (disk_with Missing)) _ H).
Defined.
